(** * Beta distribution constructor (lib/ctor.js)

    A shallow embedding of the [Beta] constructor of
    [@stdlib/stats-base-dists-beta-ctor]: the two closure variables [alpha]
    and [beta] of an instance, the validated accessors installed by
    [defineProperty], the read-only accessors and methods of
    [Beta.prototype], and the properties the specification states about
    them. *)

From Stdlib Require Import Bool List String ZArith SpecFloat.
Import ListNotations.
Open Scope string_scope.

(** ** JavaScript values *)

(** A JavaScript number is an IEEE-754 binary64 value.  [spec_float] is the
    Standard Library's description of such values: signed zeros, signed
    infinities, NaN, and finite values [(-1)^s * m * 2^e]. *)
Module Float64.

Definition number : Type := spec_float.

Definition prec : Z := 53.
Definition emax : Z := 1024.

Definition canonical (x : number) : bool := valid_binary prec emax x.

Definition zero : number := S754_zero false.
Definition NaN : number := S754_nan.
Definition PINF : number := S754_infinity false.
Definition NINF : number := S754_infinity true.

(** [1.0], [2.0], [4.0], [0.5], [-1.0] and [-5.0] as binary64 values. *)
Definition one : number := S754_finite false 4503599627370496 (-52).
Definition two : number := S754_finite false 4503599627370496 (-51).
Definition four : number := S754_finite false 4503599627370496 (-50).
Definition half : number := S754_finite false 4503599627370496 (-53).
Definition minus_one : number := S754_finite true 4503599627370496 (-52).
Definition minus_five : number := S754_finite true 5629499534213120 (-50).

(** The comparisons of JavaScript on numbers: every comparison with NaN
    is false, and [-0 == +0]. *)
Definition num_lt (x y : number) : bool := SFltb x y.
Definition num_le (x y : number) : bool := SFleb x y.
Definition num_gt (x y : number) : bool := SFltb y x.
Definition num_ge (x y : number) : bool := SFleb y x.
Definition num_eq (x y : number) : bool := SFeqb x y.

(** [isnan( x )]: [x !== x]. *)
Definition isnan (x : number) : bool := negb (SFeqb x x).

Definition add (x y : number) : number := SFadd prec emax x y.

End Float64.
Import Float64.

(** ** Values *)

(** The primitive values of ECMAScript 5 (package.json: node >= 0.10.0). *)
Inductive primitive : Type :=
| PUndefined
| PNull
| PBoolean (b : bool)
| PNumber (x : number)
| PString (s : string).

(** ** Errors and outcomes *)

(** A message is either what [format( template, v )] of
    [@stdlib/string-format] returns, the template with [String( v )] put
    at its [%s], or some other text.  The rendering of a primitive is a
    function of the primitive, so the first kind is kept as the template
    and the primitive that was rendered. *)
Inductive message : Type :=
| formatted (template : string) (p : primitive)
| plain (text : string).

(** A [TypeError], or whatever else the code of a caller throws. *)
Inductive error : Type :=
| TypeError (msg : message)
| Other (ref : nat).

Inductive outcome (A : Type) : Type :=
| Return (a : A)
| Throw (e : error).
Arguments Return {A} a.
Arguments Throw {A} e.

(** ** Objects *)

(** Converting an object to a primitive ([String( v )], or the comparisons
    and the arithmetic of a numeric function) runs its [toString] and
    [valueOf], which are code of the caller.  That code can hold the
    instance; [alpha] and [beta] being variables of the constructor, it
    reaches them through the accessors only, so what it does to the
    instance is a sequence of assignments, each passing the guard of the
    [set] accessor.  An assignment of a value that is not a number is
    rejected by the guard and leaves nothing behind, so the assignments
    that matter are assignments of numbers.  The code then returns a
    primitive or throws. *)
Inductive assignment : Type :=
| ToAlpha (x : number)
| ToBeta (x : number).

Record conversion : Type := mkConversion {
  assigns : list assignment;
  yields : outcome primitive
}.

(** The values a caller can pass: the primitives, and objects (arrays and
    functions among them).  An object is a reference together with what
    converting it does where the constructor has it converted: to a
    string, in [format]; to a number, in the call of an evaluator, all the
    conversions of one call taken together. *)
Inductive value : Type :=
| Primitive (p : primitive)
| VObject (ref : nat) (to_string to_number : conversion).

Abbreviation VUndefined := (Primitive PUndefined).
Abbreviation VNull := (Primitive PNull).
Abbreviation VBoolean b := (Primitive (PBoolean b)).
Abbreviation VNumber x := (Primitive (PNumber x)).
Abbreviation VString s := (Primitive (PString s)).

(** [Object.create( null )]: it has neither [toString] nor [valueOf], and
    converting it throws a [TypeError] of the engine. *)
Definition unconvertible : conversion :=
  mkConversion []
    (Throw (TypeError (plain "Cannot convert object to primitive value"))).

Definition bare_object (ref : nat) : value :=
  VObject ref unconvertible unconvertible.

(** An object literal [{}], an array [[]] and a function, with the
    [toString] they inherit. *)
Definition inherited (text : string) : conversion :=
  mkConversion [] (Return (PString text)).

Definition plain_object (ref : nat) : value :=
  VObject ref (inherited "[object Object]") (inherited "[object Object]").

Definition empty_array (ref : nat) : value :=
  VObject ref (inherited "") (inherited "").

Definition noop_function (ref : nat) : value :=
  VObject ref (inherited "function noop() {}")
    (inherited "function noop() {}").



(** [isPositive] is [require( '@stdlib/assert-is-positive-number' ).isPrimitive],
    a package this one depends on.  Its contract, as this repository relies
    on it (docs/repl.txt: "number ... Must be greater than `0`"; the tests
    reject ['5'], [-5.0], [0.0], [NaN], booleans, [undefined], [null],
    objects, arrays and functions): the value is a number primitive and
    [value > 0.0].  It converts nothing. *)
Definition isPositive (v : value) : bool :=
  match v with
  | VNumber x => num_gt x zero
  | _ => false
  end.

(** [String( v )], the conversion [format] applies: the assignments the
    conversion makes on the way, and the primitive that is rendered, or
    the error thrown. *)
Definition ToString (v : value) : list assignment * outcome primitive :=
  match v with
  | Primitive p => ([], Return p)
  | VObject _ to_string _ => (assigns to_string, yields to_string)
  end.

(** [format( template, v )]: [String( v )], then the interpolation. *)
Definition format (template : string) (v : value)
  : list assignment * outcome message :=
  match ToString v with
  | (code, Return p) => (code, Return (formatted template p))
  | (code, Throw e) => (code, Throw e)
  end.

(** The error of [throw new TypeError( format( ... ) )]: the call of
    [format] comes first, and what it throws is what is thrown. *)
Definition thrown (msg : outcome message) : error :=
  match msg with
  | Return m => TypeError m
  | Throw e => e
  end.

(** The error a rejected value ends in. *)
Definition rejection (template : string) (v : value) : error :=
  thrown (snd (format template v)).

(** What a numeric function makes of its argument [x]: a primitive is
    converted without running anything; an object runs its conversion. *)
Definition ToNumeric (x : value) : list assignment * outcome unit :=
  match x with
  | Primitive _ => ([], Return tt)
  | VObject _ _ to_number =>
      (assigns to_number,
       match yields to_number with
       | Return _ => Return tt
       | Throw e => Throw e
       end)
  end.

(** ** The instance *)

(** An instance owns the two variables [alpha] and [beta] captured by the
    accessors that the constructor defines on [this]. *)
Record instance : Type := mkInstance {
  alpha : value;
  beta : value
}.

(** Computations on an instance: they read and write the captured
    variables, and either return or throw.  The state at a throw is the
    state the caller observes afterwards. *)
Definition M (A : Type) : Type := instance -> outcome A * instance.

Definition ret {A} (a : A) : M A := fun s => (Return a, s).

Definition throw {A} (e : error) : M A := fun s => (Throw e, s).

Definition bind {A B} (m : M A) (k : A -> M B) : M B :=
  fun s =>
    match m s with
    | (Return a, s') => k a s'
    | (Throw e, s') => (Throw e, s')
    end.

Notation "x <- m ;; k" := (bind m (fun x => k))
  (at level 61, m at next level, right associativity).
Notation "m ;;; k" := (bind m (fun _ => k))
  (at level 61, right associativity).

Definition read_alpha : M value := fun s => (Return (alpha s), s).
Definition read_beta : M value := fun s => (Return (beta s), s).
Definition assign_alpha (v : value) : M unit :=
  fun s => (Return tt, mkInstance v (beta s)).
Definition assign_beta (v : value) : M unit :=
  fun s => (Return tt, mkInstance (alpha s) v).

(** An assignment made by the code of a caller goes through the guard of
    the accessor; the code goes on, or catches, when it is rejected. *)
Definition caller_assigns (a : assignment) (s : instance) : instance :=
  match a with
  | ToAlpha x =>
      if isPositive (VNumber x) then mkInstance (VNumber x) (beta s) else s
  | ToBeta x =>
      if isPositive (VNumber x) then mkInstance (alpha s) (VNumber x) else s
  end.

Definition caller_code (code : list assignment) (s : instance) : instance :=
  fold_left (fun s a => caller_assigns a s) code s.

Definition caller (code : list assignment) : M unit :=
  fun s => (Return tt, caller_code code s).

(** A call that runs code of the caller and then returns or throws. *)
Definition within {A} (call : list assignment * outcome A) : M A :=
  caller (fst call) ;;;
  match snd call with
  | Return a => ret a
  | Throw e => throw e
  end.

(** ** The constructor *)

Definition first_shape_template : string :=
  "invalid argument. First shape parameter must be a positive number. Value: `%s`.".
Definition second_shape_template : string :=
  "invalid argument. Second shape parameter must be a positive number. Value: `%s`.".
Definition assignment_template : string :=
  "invalid assignment. Must be a positive number. Value: `%s`.".

(** [arguments[ i ]]: [undefined] beyond [arguments.length]. *)
Definition argument (arguments : list value) (i : nat) : value :=
  nth i arguments VUndefined.

(** The body of [Beta] when [this instanceof Beta], that is, under [new].
    The accessors are defined after the validation and [this] is handed
    out at the end, so the code that [format] runs cannot reach the
    instance under construction: only what [format] returns or throws
    counts. *)
Definition Beta_new (arguments : list value) : outcome instance :=
  if negb (Nat.eqb (List.length arguments) 0) then
    let alpha := argument arguments 0 in
    let beta := argument arguments 1 in
    if negb (isPositive alpha) then
      Throw (rejection first_shape_template alpha)
    else if negb (isPositive beta) then
      Throw (rejection second_shape_template beta)
    else Return (mkInstance alpha beta)
  else
    Return (mkInstance (VNumber one) (VNumber one)).

(** How [Beta] is invoked: [new Beta( ... )] or [Beta( ... )]. *)
Inductive invocation : Type :=
| WithNew
| WithoutNew.

Definition this_instanceof_Beta (i : invocation) : bool :=
  match i with
  | WithNew => true
  | WithoutNew => false
  end.

Definition Beta (i : invocation) (arguments : list value) : outcome instance :=
  if negb (this_instanceof_Beta i) then
    if Nat.eqb (List.length arguments) 0 then Beta_new []
    else Beta_new [argument arguments 0; argument arguments 1]
  else Beta_new arguments.

(** The [set] accessors of [alpha] and [beta]. *)
Definition set_alpha (v : value) : M value :=
  if negb (isPositive v) then
    msg <- within (format assignment_template v) ;;
    throw (TypeError msg)
  else
    assign_alpha v ;;; ret VUndefined.

Definition set_beta (v : value) : M value :=
  if negb (isPositive v) then
    msg <- within (format assignment_template v) ;;
    throw (TypeError msg)
  else
    assign_beta v ;;; ret VUndefined.

(** The [get] accessors. *)
Definition get_alpha : M value := read_alpha.
Definition get_beta : M value := read_beta.

(** ** The distribution functions the constructor delegates to *)

(** The functions imported from the [@stdlib/stats-base-dists-beta-*]
    packages.  The constructor passes them whatever the instance holds and
    whatever the caller gives, so they take values.  The properties get
    the two fields only.  An evaluator also gets the argument of the
    caller; when that is an object the evaluator converts it, see [call]. *)
Class Properties : Type := {
  entropy : value -> value -> value;
  kurtosis : value -> value -> value;
  mean : value -> value -> value;
  median : value -> value -> value;
  mode : value -> value -> value;
  skewness : value -> value -> value;
  stdev : value -> value -> value;
  variance : value -> value -> value
}.

Class Evaluators : Type := {
  cdf : value -> value -> value -> value;
  logcdf : value -> value -> value -> value;
  logpdf : value -> value -> value -> value;
  mgf : value -> value -> value -> value;
  pdf : value -> value -> value -> value;
  quantile : value -> value -> value -> value
}.

Inductive property : Type :=
| Entropy | Kurtosis | Mean | Median | Mode | Skewness | Stdev | Variance.

Inductive method : Type :=
| CDF | LogCDF | LogPDF | MGF | PDF | Quantile.

(** What a caller can do with an instance. *)
Inductive op : Type :=
| GetAlpha
| GetBeta
| SetAlpha (v : value)
| SetBeta (v : value)
| GetProperty (p : property)
| CallMethod (m : method) (x : value).

Definition is_write (o : op) : bool :=
  match o with
  | SetAlpha _ | SetBeta _ => true
  | _ => false
  end.

(** Whether the argument of an operation is a primitive. *)
Definition scalar (o : op) : bool :=
  match o with
  | SetAlpha (VObject _ _ _) | SetBeta (VObject _ _ _)
  | CallMethod _ (VObject _ _ _) => false
  | _ => true
  end.

(** Whether the conversion an operation applies to its argument, if any,
    makes no assignment to the instance. *)
Definition quiet (o : op) : bool :=
  match o with
  | SetAlpha v | SetBeta v =>
      match fst (ToString v) with [] => true | _ => false end
  | CallMethod _ x =>
      match fst (ToNumeric x) with [] => true | _ => false end
  | _ => true
  end.

(** The call [f( x, a, b )] of an imported evaluator: the conversion of
    [x] runs first and what it throws is thrown; otherwise the result is
    what the evaluator returns. *)
Definition call (f : value -> value -> value -> value) (x a b : value)
  : M value :=
  within (ToNumeric x) ;;; ret (f x a b).

Section Prototype.

Context {P : Properties} {E : Evaluators}.

(** The methods: each reads [this.alpha] and [this.beta] through the
    accessors and calls the imported function. *)
Definition betaCDF (x : value) : M value :=
  a <- get_alpha ;; b <- get_beta ;; call cdf x a b.

Definition betaLogCDF (x : value) : M value :=
  a <- get_alpha ;; b <- get_beta ;; call logcdf x a b.

Definition betaLogPDF (x : value) : M value :=
  a <- get_alpha ;; b <- get_beta ;; call logpdf x a b.

Definition betaMGF (t : value) : M value :=
  a <- get_alpha ;; b <- get_beta ;; call mgf t a b.

Definition betaPDF (x : value) : M value :=
  a <- get_alpha ;; b <- get_beta ;; call pdf x a b.

Definition betaQuantile (p : value) : M value :=
  a <- get_alpha ;; b <- get_beta ;; call quantile p a b.

(** The read-only accessors of [Beta.prototype]. *)
Definition get_entropy : M value :=
  a <- get_alpha ;; b <- get_beta ;; ret (entropy a b).

Definition get_kurtosis : M value :=
  a <- get_alpha ;; b <- get_beta ;; ret (kurtosis a b).

Definition get_mean : M value :=
  a <- get_alpha ;; b <- get_beta ;; ret (mean a b).

Definition get_median : M value :=
  a <- get_alpha ;; b <- get_beta ;; ret (median a b).

Definition get_mode : M value :=
  a <- get_alpha ;; b <- get_beta ;; ret (mode a b).

Definition get_skewness : M value :=
  a <- get_alpha ;; b <- get_beta ;; ret (skewness a b).

Definition get_stdev : M value :=
  a <- get_alpha ;; b <- get_beta ;; ret (stdev a b).

Definition get_variance : M value :=
  a <- get_alpha ;; b <- get_beta ;; ret (variance a b).

Definition get_property (p : property) : M value :=
  match p with
  | Entropy => get_entropy
  | Kurtosis => get_kurtosis
  | Mean => get_mean
  | Median => get_median
  | Mode => get_mode
  | Skewness => get_skewness
  | Stdev => get_stdev
  | Variance => get_variance
  end.

Definition call_method (m : method) (x : value) : M value :=
  match m with
  | CDF => betaCDF x
  | LogCDF => betaLogCDF x
  | LogPDF => betaLogPDF x
  | MGF => betaMGF x
  | PDF => betaPDF x
  | Quantile => betaQuantile x
  end.

(** The imported function behind each property and method. *)
Definition property_fn (p : property) : value -> value -> value :=
  match p with
  | Entropy => entropy
  | Kurtosis => kurtosis
  | Mean => mean
  | Median => median
  | Mode => mode
  | Skewness => skewness
  | Stdev => stdev
  | Variance => variance
  end.

Definition method_fn (m : method) : value -> value -> value -> value :=
  match m with
  | CDF => cdf
  | LogCDF => logcdf
  | LogPDF => logpdf
  | MGF => mgf
  | PDF => pdf
  | Quantile => quantile
  end.

Definition exec (o : op) : M value :=
  match o with
  | GetAlpha => get_alpha
  | GetBeta => get_beta
  | SetAlpha v => set_alpha v
  | SetBeta v => set_beta v
  | GetProperty p => get_property p
  | CallMethod m x => call_method m x
  end.

(** A caller's session: operations one after the other, a thrown error
    being caught and the session going on with the instance as it is. *)
Definition run (ops : list op) (d : instance) : instance :=
  fold_left (fun s o => snd (exec o s)) ops d.

End Prototype.

(** Both fields hold a number greater than zero. *)
Definition positive_fields (d : instance) : bool :=
  isPositive (alpha d) && isPositive (beta d).

(** Whether [needle] occurs in [hay]. *)
Fixpoint contains (needle hay : string) : bool :=
  String.prefix needle hay ||
  match hay with
  | EmptyString => false
  | String _ rest => contains needle rest
  end.

Inductive shape_parameter : Type :=
| First
| Second.

(** The shape parameter a message names. *)
Definition names (msg : message) (which : shape_parameter) : bool :=
  let text := match msg with
              | formatted template _ => template
              | plain text => text
              end in
  match which with
  | First => contains "First shape parameter" text
  | Second => contains "Second shape parameter" text
  end.

(** The value a message was formatted with, if it was formatted. *)
Definition offending_value (msg : message) : option primitive :=
  match msg with
  | formatted _ p => Some p
  | plain _ => None
  end.

(** A number primitive that is positive and finite, as the specification
    words the validation. *)
Definition is_positive_finite (v : value) : bool :=
  match v with
  | VNumber (S754_finite false _ _) => true
  | _ => false
  end.


(** ** The evaluators, from the specification

    The six evaluators live in packages of their own
    ([@stdlib/stats-base-dists-beta-cdf] and the like); the constructor only
    calls them.  The specification (4.3 to 4.6, and 7) fixes what they
    return outside the support and on NaN, and leaves the values inside to
    the special-function kernels. *)
Module Numerics.

(** The kernels the specification names without fixing their values: the
    regularized incomplete beta function on [0 < x < 1], its logarithm,
    its inverse on [0 < p < 1], the log-density on the support [0 <= x <= 1],
    Kummer's function [1F1( a; c; t )], and [ln] and [exp] on the finite
    arguments that IEEE-754 does not settle.  With them, the number a
    string converts to ([ToNumber] of ECMAScript on strings). *)
Class Kernels : Type := {
  betainc : number -> number -> number -> number;
  ln_betainc : number -> number -> number -> number;
  betaincinv : number -> number -> number -> number;
  logpdf_support : number -> number -> number -> number;
  hyp1f1 : number -> number -> number -> number;
  ln_finite : number -> number;
  exp_finite : number -> number;
  string_to_number : string -> number
}.

Section Evaluate.

Context {K : Kernels}.

(** The natural logarithm, with the values IEEE-754 fixes: [ln( 0 )] is
    [-Infinity], [ln( 1 )] is [0], [ln( +Infinity )] is [+Infinity], and the
    logarithm of a negative number or of NaN is NaN. *)
Definition ln (x : number) : number :=
  match x with
  | S754_nan => NaN
  | S754_zero _ => NINF
  | S754_infinity false => PINF
  | S754_infinity true => NaN
  | S754_finite true _ _ => NaN
  | S754_finite false _ _ => if num_eq x one then zero else ln_finite x
  end.

(** The exponential, with the values IEEE-754 fixes: [exp( -Infinity )] is
    [0], [exp( +Infinity )] is [+Infinity], [exp( NaN )] is NaN. *)
Definition exp (x : number) : number :=
  match x with
  | S754_nan => NaN
  | S754_infinity true => zero
  | S754_infinity false => PINF
  | _ => exp_finite x
  end.

(** "NaN propagates: any NaN parameter or input yields NaN output." *)
Definition any_nan (x a b : number) : bool :=
  isnan x || isnan a || isnan b.

(** Modelled from the spec: the cumulative distribution function of
    [@stdlib/stats-base-dists-beta-cdf] (4.4): [0] for [x <= 0], [1] for
    [x >= 1], else the regularized incomplete beta function; NaN
    propagates (7). *)
Definition cdf (x a b : number) : number :=
  if any_nan x a b then NaN
  else if num_le x zero then zero
  else if num_ge x one then one
  else betainc x a b.

(** Modelled from the spec: the logarithm of the cumulative distribution
    function of [@stdlib/stats-base-dists-beta-logcdf] (4.4):
    [ln( cdf( x, a, b ) )], by a direct log-space algorithm where the
    incomplete beta function is evaluated; NaN propagates (7). *)
Definition logcdf (x a b : number) : number :=
  if any_nan x a b then NaN
  else if num_le x zero || num_ge x one then ln (cdf x a b)
  else ln_betainc x a b.

(** Modelled from the spec: the log-density of
    [@stdlib/stats-base-dists-beta-logpdf] (4.3): [-Infinity] for [x]
    outside [[0,1]], the formula and its limits at the boundary on the
    support; NaN propagates. *)
Definition logpdf (x a b : number) : number :=
  if any_nan x a b then NaN
  else if num_lt x zero || num_gt x one then NINF
  else logpdf_support x a b.

(** Modelled from the spec: the density of
    [@stdlib/stats-base-dists-beta-pdf] (4.3): [exp( logpdf )], with the
    short-circuit for the uniform case [a = 1], [b = 1], where the density
    is [1] on the support; NaN propagates. *)
Definition pdf (x a b : number) : number :=
  if any_nan x a b then NaN
  else if num_eq a one && num_eq b one && num_ge x zero && num_le x one
  then one
  else exp (logpdf x a b).

(** Modelled from the spec: the moment-generating function of
    [@stdlib/stats-base-dists-beta-mgf] (4.5): Kummer's function
    [1F1( a; a+b; t )]; NaN propagates (7). *)
Definition mgf (t a b : number) : number :=
  if any_nan t a b then NaN
  else hyp1f1 a (add a b) t.

(** Modelled from the spec: the quantile function of
    [@stdlib/stats-base-dists-beta-quantile] (4.6): NaN for [p] outside
    [[0,1]] and for NaN, [0] at [p = 0] and [1] at [p = 1] without
    iteration, else the inverse of the cumulative distribution function. *)
Definition quantile (p a b : number) : number :=
  if any_nan p a b then NaN
  else if num_lt p zero || num_gt p one then NaN
  else if num_eq p zero then zero
  else if num_eq p one then one
  else betaincinv p a b.

(** [ToNumber] of ECMAScript 5 on primitives. *)
Definition ToNumber (p : primitive) : number :=
  match p with
  | PUndefined => NaN
  | PNull => zero
  | PBoolean true => one
  | PBoolean false => zero
  | PNumber x => x
  | PString s => string_to_number s
  end.

(** The number an argument stands for in the comparisons and the
    arithmetic of an evaluator: its conversion, for an object the
    conversion of the primitive its code returns.  An object whose code
    throws does not get that far, see [call]. *)
Definition numeric (v : value) : number :=
  match v with
  | Primitive p => ToNumber p
  | VObject _ _ to_number =>
      match yields to_number with
      | Return p => ToNumber p
      | Throw _ => NaN
      end
  end.

(** The evaluators on values.  The specification states them on 64-bit
    floating-point scalars; the code converts what it is given. *)
Definition on_values (f : number -> number -> number -> number)
  (x a b : value) : value :=
  VNumber (f (numeric x) (numeric a) (numeric b)).

Definition evaluators : Evaluators :=
  Build_Evaluators (on_values cdf) (on_values logcdf) (on_values logpdf)
    (on_values mgf) (on_values pdf) (on_values quantile).

End Evaluate.

End Numerics.

(** ** Stand-ins for the imported functions, for the examples *)

(** The closed forms of the uniform case [alpha = beta = 1], where the
    cumulative distribution function and its inverse are the identity. *)
Definition uniform_kernels : Numerics.Kernels :=
  Numerics.Build_Kernels
    (fun x _ _ => x) (fun x _ _ => NaN) (fun p _ _ => p)
    (fun _ _ _ => zero) (fun _ _ _ => NaN) (fun _ => NaN) (fun _ => NaN)
    (fun _ => NaN).

Definition uniform_evaluators : Evaluators :=
  @Numerics.evaluators uniform_kernels.

Definition undefined_properties : Properties :=
  Build_Properties
    (fun _ _ => VNumber NaN) (fun _ _ => VNumber NaN)
    (fun _ _ => VNumber NaN) (fun _ _ => VNumber NaN)
    (fun _ _ => VNumber NaN) (fun _ _ => VNumber NaN)
    (fun _ _ => VNumber NaN) (fun _ _ => VNumber NaN).

(** ** Domains of the evaluators *)

Definition outside_support (x : number) : bool :=
  num_lt x zero || num_gt x one.

(** The moment-generating function is defined for every [t]. *)
Definition out_of_domain (m : method) (x : number) : bool :=
  match m with
  | MGF => false
  | _ => outside_support x
  end.

Definition sentinels : list number := [zero; one; NINF; NaN].

(** ** Sessions *)

(** Whether an operation is an assignment that its accessor accepts. *)
Definition accepted_write (o : op) : bool :=
  match o with
  | SetAlpha v | SetBeta v => isPositive v
  | _ => false
  end.

(** Whether an operation is an accepted assignment to [alpha], to [beta]. *)
Definition accepts_alpha (o : op) : bool :=
  match o with
  | SetAlpha v => isPositive v
  | _ => false
  end.

Definition accepts_beta (o : op) : bool :=
  match o with
  | SetBeta v => isPositive v
  | _ => false
  end.


(** * Properties *)

(** ** Numbers *)

Lemma the_constants_are_binary64 :
  forallb canonical
    [zero; NaN; PINF; NINF; one; two; four; half; minus_one; minus_five] = true.
Proof. vm_compute. reflexivity. Qed.

Lemma gt_zero_cases (x : number) :
  num_gt x zero = true <->
  x = PINF \/ exists m e, x = S754_finite false m e.
Proof.
  split.
  - destruct x as [s | s | | s m e]; try destruct s; cbn; try discriminate.
    + intros _. left. reflexivity.
    + intros _. right. exists m, e. reflexivity.
  - intros [-> | (m & e & ->)]; reflexivity.
Qed.

Lemma compare_self (x : number) :
  x <> S754_nan -> SFcompare x x = Some Eq.
Proof.
  destruct x as [s | s | | s m e]; intros H; try destruct s; cbn;
    try reflexivity; try (now elim H);
    rewrite Z.compare_refl, Pos.compare_cont_refl; reflexivity.
Qed.

Lemma isnan_true_iff (x : number) : isnan x = true <-> x = S754_nan.
Proof.
  unfold isnan, SFeqb. split.
  - destruct x as [s | s | | s m e]; try reflexivity;
      rewrite compare_self by discriminate; discriminate.
  - intros ->. reflexivity.
Qed.

Lemma gt_zero_not_nan (x : number) :
  num_gt x zero = true -> isnan x = false.
Proof.
  intros H. apply gt_zero_cases in H.
  destruct H as [-> | (m & e & ->)]; unfold isnan, SFeqb.
  - reflexivity.
  - rewrite compare_self by discriminate. reflexivity.
Qed.

(** ** The validation *)

Lemma isPositive_number (v : value) :
  isPositive v = true <-> exists x, v = VNumber x /\ num_gt x zero = true.
Proof.
  split.
  - destruct v as [[ | | b | x | s] | r s n]; cbn; try discriminate.
    intros H. exists x. auto.
  - intros (x & -> & H). exact H.
Qed.

(** What [isPositive] rejects: everything that is not a number, and the
    numbers NaN, [+0], [-0], [-Infinity] and the negative ones. *)
Lemma isPositive_rejects (v : value) :
  isPositive v = false <->
  match v with
  | VNumber (S754_infinity false) => False
  | VNumber (S754_finite false _ _) => False
  | _ => True
  end.
Proof.
  destruct v as [[ | | b | x | s] | r s n]; cbn; try tauto.
  destruct x as [s | s | | s m e]; try destruct s; cbn; split;
    try tauto; try discriminate; reflexivity.
Qed.

(** The values the tests pass as invalid shape parameters: ['5'], [-5.0],
    [0.0], [NaN], [true], [false], [undefined], [null], an object, an
    array and a function.  None is accepted; [2.0] and [4.0] are. *)
Example the_tests_bad_values :
  existsb isPositive
    [VString "5"; VNumber minus_five; VNumber zero; VNumber NaN;
     VBoolean true; VBoolean false; VUndefined; VNull;
     plain_object 0; empty_array 1; noop_function 2] = false /\
  forallb isPositive [VNumber two; VNumber four] = true.
Proof. split; reflexivity. Qed.

(** The three messages are told apart by the parameter they name. *)
Example the_messages_name_their_parameter (p : primitive) :
  names (formatted first_shape_template p) First = true /\
  names (formatted first_shape_template p) Second = false /\
  names (formatted second_shape_template p) First = false /\
  names (formatted second_shape_template p) Second = true /\
  names (formatted assignment_template p) First = false /\
  names (formatted assignment_template p) Second = false.
Proof. repeat split. Qed.

Lemma positive_fields_numbers (d : instance) :
  positive_fields d = true <->
  exists a b, alpha d = VNumber a /\ beta d = VNumber b /\
              num_gt a zero = true /\ num_gt b zero = true.
Proof.
  unfold positive_fields. rewrite andb_true_iff, !isPositive_number.
  split.
  - intros [(a & Ha & Pa) (b & Hb & Pb)]. exists a, b. auto.
  - intros (a & b & Ha & Hb & Pa & Pb). split; eauto.
Qed.

(** ** Conversions *)

Lemma format_code (template : string) (v : value) :
  fst (format template v) = fst (ToString v).
Proof.
  unfold format. destruct (ToString v) as [code [p | e]]; reflexivity.
Qed.

Lemma rejection_primitive (template : string) (p : primitive) :
  rejection template (Primitive p) = TypeError (formatted template p).
Proof. reflexivity. Qed.

Lemma rejection_rendered (template : string) (v : value) (p : primitive) :
  snd (ToString v) = Return p ->
  rejection template v = TypeError (formatted template p).
Proof.
  unfold rejection, format. destruct (ToString v) as [code r]. cbn.
  intros ->. reflexivity.
Qed.

Lemma rejection_unrendered (template : string) (v : value) (e : error) :
  snd (ToString v) = Throw e -> rejection template v = e.
Proof.
  unfold rejection, format. destruct (ToString v) as [code r]. cbn.
  intros ->. reflexivity.
Qed.

Lemma caller_assigns_positive (a : assignment) (d : instance) :
  positive_fields d = true -> positive_fields (caller_assigns a d) = true.
Proof.
  unfold positive_fields. intros H. apply andb_true_iff in H as [Ha Hb].
  destruct a as [x | x]; cbn [caller_assigns];
    destruct (isPositive (VNumber x)) eqn:Hx; cbn [alpha beta];
    rewrite ?Ha, ?Hb, ?Hx; reflexivity.
Qed.

Lemma caller_code_positive (code : list assignment) (d : instance) :
  positive_fields d = true -> positive_fields (caller_code code d) = true.
Proof.
  revert d. induction code as [ | a code IH]; intros d Hd; [exact Hd | ].
  apply IH, caller_assigns_positive, Hd.
Qed.

(** ** The constructor *)

Lemma Beta_new_two (a b : value) :
  Beta_new [a; b] =
  if isPositive a then
    if isPositive b then Return (mkInstance a b)
    else Throw (rejection second_shape_template b)
  else Throw (rejection first_shape_template a).
Proof.
  unfold Beta_new, argument. cbn.
  destruct (isPositive a), (isPositive b); reflexivity.
Qed.

Lemma Beta_two (i : invocation) (a b : value) :
  Beta i [a; b] = Beta_new [a; b].
Proof. destruct i; reflexivity. Qed.

Lemma Beta_without_new (arguments : list value) :
  Beta WithoutNew arguments = Beta WithNew arguments.
Proof.
  destruct arguments as [ | a [ | b rest]]; reflexivity.
Qed.

Lemma Beta_returns (i : invocation) (arguments : list value) (d : instance) :
  Beta i arguments = Return d ->
  (arguments = [] /\ d = mkInstance (VNumber one) (VNumber one)) \/
  (arguments <> [] /\
   isPositive (argument arguments 0) = true /\
   isPositive (argument arguments 1) = true /\
   d = mkInstance (argument arguments 0) (argument arguments 1)).
Proof.
  assert (Beta i arguments = Beta_new arguments) as ->.
  { destruct i; [reflexivity | apply Beta_without_new]. }
  unfold Beta_new, argument. destruct arguments as [ | a rest]; cbn.
  - intros H. left. split; congruence.
  - destruct (isPositive a) eqn:Ha; cbn; try discriminate.
    destruct (isPositive (nth 0 rest VUndefined)) eqn:Hb; cbn;
      try discriminate.
    intros H. right. repeat split; congruence.
Qed.

Lemma Beta_returns_positive (i : invocation) (arguments : list value)
  (d : instance) :
  Beta i arguments = Return d -> positive_fields d = true.
Proof.
  intros H. apply Beta_returns in H.
  destruct H as [[_ ->] | (_ & Ha & Hb & ->)].
  - reflexivity.
  - unfold positive_fields. cbn. rewrite Ha, Hb. reflexivity.
Qed.

(** ** Assignments *)

Lemma set_alpha_cases (v : value) (d : instance) :
  set_alpha v d =
  if isPositive v then (Return VUndefined, mkInstance v (beta d))
  else (Throw (rejection assignment_template v),
        caller_code (fst (ToString v)) d).
Proof.
  unfold set_alpha, rejection, format, within, bind, caller.
  destruct (isPositive v); [reflexivity | ]. cbn.
  destruct (ToString v) as [code [p | e]]; reflexivity.
Qed.

Lemma set_beta_cases (v : value) (d : instance) :
  set_beta v d =
  if isPositive v then (Return VUndefined, mkInstance (alpha d) v)
  else (Throw (rejection assignment_template v),
        caller_code (fst (ToString v)) d).
Proof.
  unfold set_beta, rejection, format, within, bind, caller.
  destruct (isPositive v); [reflexivity | ]. cbn.
  destruct (ToString v) as [code [p | e]]; reflexivity.
Qed.

(** An assignment made by the code of a caller is an assignment through
    the accessor. *)
Lemma caller_assigns_through_accessor (a : assignment) (d : instance) :
  caller_assigns a d =
  match a with
  | ToAlpha x => snd (set_alpha (VNumber x) d)
  | ToBeta x => snd (set_beta (VNumber x) d)
  end.
Proof.
  destruct a as [x | x]; rewrite ?set_alpha_cases, ?set_beta_cases;
    cbn [caller_assigns]; destruct (isPositive (VNumber x)); reflexivity.
Qed.

Section Sessions.

Context {P : Properties} {E : Evaluators}.

Lemma call_primitive (f : value -> value -> value -> value)
  (p : primitive) (a b : value) (d : instance) :
  call f (Primitive p) a b d = (Return (f (Primitive p) a b), d).
Proof. reflexivity. Qed.

Lemma call_cases (f : value -> value -> value -> value) (x a b : value)
  (d : instance) :
  call f x a b d =
  (match snd (ToNumeric x) with
   | Return _ => Return (f x a b)
   | Throw e => Throw e
   end,
   caller_code (fst (ToNumeric x)) d).
Proof.
  unfold call, within, bind, caller.
  destruct (ToNumeric x) as [code [[] | e]]; reflexivity.
Qed.

Lemma call_method_reads (m : method) (x : value) (d : instance) :
  call_method m x d = call (method_fn m) x (alpha d) (beta d) d.
Proof. destruct m; reflexivity. Qed.

Lemma get_property_reads (p : property) (d : instance) :
  get_property p d = (Return (property_fn p (alpha d) (beta d)), d).
Proof. destruct p; reflexivity. Qed.

Lemma run_cons (o : op) (ops : list op) (d : instance) :
  run (o :: ops) d = run ops (snd (exec o d)).
Proof. reflexivity. Qed.

(** What an operation leaves: the accepted value in its field, or else
    whatever the conversion of its argument assigned. *)
Lemma exec_leaves (o : op) (d : instance) :
  snd (exec o d) =
  match o with
  | SetAlpha v =>
      if isPositive v then mkInstance v (beta d)
      else caller_code (fst (ToString v)) d
  | SetBeta v =>
      if isPositive v then mkInstance (alpha d) v
      else caller_code (fst (ToString v)) d
  | CallMethod _ x => caller_code (fst (ToNumeric x)) d
  | _ => d
  end.
Proof.
  destruct o as [ | | v | v | p | m x]; cbn [exec];
    rewrite ?set_alpha_cases, ?set_beta_cases, ?get_property_reads,
            ?call_method_reads, ?call_cases;
    try reflexivity; destruct (isPositive v); reflexivity.
Qed.

Lemma reads_keep_the_instance (o : op) (d : instance) :
  is_write o = false -> scalar o = true ->
  exists v, exec o d = (Return v, d).
Proof.
  destruct o as [ | | v | v | p | m x]; cbn; try discriminate; intros _.
  - exists (alpha d). reflexivity.
  - exists (beta d). reflexivity.
  - rewrite get_property_reads. eauto.
  - destruct x as [q | r s n]; [ | discriminate]. intros _.
    rewrite call_method_reads, call_primitive. eauto.
Qed.

Lemma exec_keeps_positive (o : op) (d : instance) :
  positive_fields d = true -> positive_fields (snd (exec o d)) = true.
Proof.
  intros Hd. rewrite exec_leaves.
  pose proof Hd as Hd'. unfold positive_fields in Hd'.
  apply andb_true_iff in Hd' as [Ha Hb].
  destruct o as [ | | v | v | p | m x]; auto using caller_code_positive;
    (destruct (isPositive v) eqn:Hv; [ | auto using caller_code_positive]);
    unfold positive_fields; cbn; rewrite ?Ha, ?Hb, Hv; reflexivity.
Qed.

Lemma run_keeps_positive (ops : list op) (d : instance) :
  positive_fields d = true -> positive_fields (run ops d) = true.
Proof.
  revert d. induction ops as [ | o ops IH]; intros d Hd.
  - exact Hd.
  - rewrite run_cons. apply IH. apply exec_keeps_positive. exact Hd.
Qed.

(** C1.  After a successful construction, and after any session on the
    instance, [alpha] and [beta] both hold a number greater than zero: the
    constructor returns the defaults [1.0], [1.0] or its two validated
    arguments; an assignment to [alpha] or [beta] installs a positive
    number, or throws and itself assigns nothing, the instance being left
    as the conversion of the rejected value to a string leaves it, that
    is, as it was for every primitive; reading a field or a property, or
    calling a method on a primitive, leaves the instance as it was. *)
Theorem fields_stay_positive (i : invocation) (arguments : list value)
  (d : instance) (ops : list op) :
  Beta i arguments = Return d ->
  (exists a b, alpha (run ops d) = VNumber a /\ beta (run ops d) = VNumber b /\
               num_gt a zero = true /\ num_gt b zero = true) /\
  (d = mkInstance (VNumber one) (VNumber one) \/
   (isPositive (argument arguments 0) = true /\
    isPositive (argument arguments 1) = true /\
    d = mkInstance (argument arguments 0) (argument arguments 1))) /\
  (forall v, exec (SetAlpha v) (run ops d) =
             if isPositive v
             then (Return VUndefined, mkInstance v (beta (run ops d)))
             else (Throw (rejection assignment_template v),
                   caller_code (fst (ToString v)) (run ops d))) /\
  (forall v, exec (SetBeta v) (run ops d) =
             if isPositive v
             then (Return VUndefined, mkInstance (alpha (run ops d)) v)
             else (Throw (rejection assignment_template v),
                   caller_code (fst (ToString v)) (run ops d))) /\
  (forall p, isPositive (Primitive p) = false ->
             exec (SetAlpha (Primitive p)) (run ops d) =
               (Throw (TypeError (formatted assignment_template p)),
                run ops d) /\
             exec (SetBeta (Primitive p)) (run ops d) =
               (Throw (TypeError (formatted assignment_template p)),
                run ops d)) /\
  (forall o, is_write o = false -> scalar o = true ->
             exists v, exec o (run ops d) = (Return v, run ops d)).
Proof.
  intros H. split; [ | split; [ | split; [ | split; [ | split] ] ] ].
  - apply positive_fields_numbers, run_keeps_positive.
    exact (Beta_returns_positive _ _ _ H).
  - apply Beta_returns in H. destruct H as [[_ ->] | (_ & Ha & Hb & ->)]; auto.
  - intros v. apply set_alpha_cases.
  - intros v. apply set_beta_cases.
  - intros p Hp. cbn [exec]. rewrite set_alpha_cases, set_beta_cases, Hp.
    split; reflexivity.
  - intros o. apply reads_keep_the_instance.
Qed.

(** C5.  Every method and every read-only property is computed, at each
    access, from the values [alpha] and [beta] hold at that access: a
    method is the call of its imported function on the argument and the
    two fields, a property the value of its imported function on the two
    fields.  On a scalar argument the access leaves the fields as they
    are; after a successful assignment to [alpha] or to [beta], a method
    call or property read uses the assigned value. *)
Theorem accesses_use_current_fields (d : instance) (x : primitive)
  (v : value) :
  (betaCDF (Primitive x) d =
     (Return (cdf (Primitive x) (alpha d) (beta d)), d) /\
   betaLogCDF (Primitive x) d =
     (Return (logcdf (Primitive x) (alpha d) (beta d)), d) /\
   betaLogPDF (Primitive x) d =
     (Return (logpdf (Primitive x) (alpha d) (beta d)), d) /\
   betaPDF (Primitive x) d =
     (Return (pdf (Primitive x) (alpha d) (beta d)), d) /\
   betaMGF (Primitive x) d =
     (Return (mgf (Primitive x) (alpha d) (beta d)), d) /\
   betaQuantile (Primitive x) d =
     (Return (quantile (Primitive x) (alpha d) (beta d)), d)) /\
  (get_mean d = (Return (mean (alpha d) (beta d)), d) /\
   get_entropy d = (Return (entropy (alpha d) (beta d)), d) /\
   get_kurtosis d = (Return (kurtosis (alpha d) (beta d)), d) /\
   get_median d = (Return (median (alpha d) (beta d)), d) /\
   get_mode d = (Return (mode (alpha d) (beta d)), d) /\
   get_skewness d = (Return (skewness (alpha d) (beta d)), d) /\
   get_stdev d = (Return (stdev (alpha d) (beta d)), d) /\
   get_variance d = (Return (variance (alpha d) (beta d)), d)) /\
  (isPositive v = true ->
   (forall m, (set_alpha v ;;; call_method m (Primitive x)) d =
              (Return (method_fn m (Primitive x) v (beta d)),
               mkInstance v (beta d))) /\
   (forall p, (set_alpha v ;;; get_property p) d =
              (Return (property_fn p v (beta d)), mkInstance v (beta d))) /\
   (forall m, (set_beta v ;;; call_method m (Primitive x)) d =
              (Return (method_fn m (Primitive x) (alpha d) v),
               mkInstance (alpha d) v)) /\
   (forall p, (set_beta v ;;; get_property p) d =
              (Return (property_fn p (alpha d) v), mkInstance (alpha d) v))) /\
  (forall y,
     betaCDF y d = call cdf y (alpha d) (beta d) d /\
     betaLogCDF y d = call logcdf y (alpha d) (beta d) d /\
     betaLogPDF y d = call logpdf y (alpha d) (beta d) d /\
     betaPDF y d = call pdf y (alpha d) (beta d) d /\
     betaMGF y d = call mgf y (alpha d) (beta d) d /\
     betaQuantile y d = call quantile y (alpha d) (beta d) d).
Proof.
  split; [ | split; [ | split] ].
  - repeat split.
  - repeat split.
  - intros Hv. repeat split; intros q; unfold bind;
      rewrite ?set_alpha_cases, ?set_beta_cases, Hv;
      rewrite ?call_method_reads, ?call_primitive, ?get_property_reads;
      reflexivity.
  - intros y. repeat split.
Qed.

End Sessions.

(** ** Construction *)

(** C9.  With no argument the constructor returns an instance whose fields
    are [alpha = 1.0] and [beta = 1.0], with [new] and without. *)
Theorem default_shape_parameters (i : invocation) :
  Beta i [] = Return (mkInstance (VNumber one) (VNumber one)).
Proof. destruct i; reflexivity. Qed.

(** C10.  Called without [new], the constructor does what it does under
    [new] on the same arguments: no argument gives the default instance,
    and otherwise the first two arguments, and nothing beyond them, are
    passed on to [new Beta]. *)
Theorem without_new_as_with_new (arguments : list value) (a b : value)
  (rest : list value) :
  Beta WithoutNew arguments = Beta WithNew arguments /\
  Beta WithoutNew [] = Return (mkInstance (VNumber one) (VNumber one)) /\
  Beta WithoutNew (a :: rest) = Beta WithNew [a; argument rest 0] /\
  Beta WithoutNew (a :: b :: rest) = Beta WithNew [a; b].
Proof.
  split; [apply Beta_without_new | ].
  repeat split.
Qed.


(** C2, as the code has it.  When the first or the second of two arguments
    is not a positive number (it is not a number, or it is NaN, zero,
    negative or [-Infinity]), the constructor throws and returns no
    instance.  What it throws is decided by the first argument when that
    one is rejected, and by the second otherwise.  Whenever the deciding
    argument converts to a string, as every primitive does, the error is a
    [TypeError] whose message names that shape parameter and carries the
    value; when the conversion throws, its error is thrown.  [+Infinity]
    is a positive number.  [( -5.0, 2.0 )], [( 0.0, 2.0 )] and
    [( NaN, 2.0 )] are rejected with the message for the first shape
    parameter. *)
Theorem invalid_shape_rejected :
  (forall (i : invocation) (a b : value),
     isPositive a = false \/ isPositive b = false ->
     exists e,
       Beta i [a; b] = Throw e /\
       ((isPositive a = false /\ e = rejection first_shape_template a /\
         forall p, snd (ToString a) = Return p ->
                   exists msg, e = TypeError msg /\
                               names msg First = true /\
                               offending_value msg = Some p) \/
        (isPositive a = true /\ isPositive b = false /\
         e = rejection second_shape_template b /\
         forall p, snd (ToString b) = Return p ->
                   exists msg, e = TypeError msg /\
                               names msg Second = true /\
                               offending_value msg = Some p))) /\
  (forall v, isPositive v = false <->
             match v with
             | VNumber (S754_infinity false) => False
             | VNumber (S754_finite false _ _) => False
             | _ => True
             end) /\
  (forall i, Beta i [VNumber minus_five; VNumber two] =
             Throw (TypeError (formatted first_shape_template
                                 (PNumber minus_five)))) /\
  (forall i, Beta i [VNumber zero; VNumber two] =
             Throw (TypeError (formatted first_shape_template
                                 (PNumber zero)))) /\
  (forall i, Beta i [VNumber NaN; VNumber two] =
             Throw (TypeError (formatted first_shape_template
                                 (PNumber NaN)))).
Proof.
  split; [ | split; [exact isPositive_rejects | ] ].
  - intros i a b H. rewrite Beta_two, Beta_new_two.
    destruct (isPositive a) eqn:Ha.
    + destruct (isPositive b) eqn:Hb.
      * destruct H; discriminate.
      * eexists. split; [reflexivity | ]. right. repeat split.
        intros p Hp. rewrite (rejection_rendered _ _ _ Hp).
        eexists. repeat split.
    + eexists. split; [reflexivity | ]. left. repeat split.
      intros p Hp. rewrite (rejection_rendered _ _ _ Hp).
      eexists. repeat split.
  - repeat split; intros i; rewrite Beta_two; reflexivity.
Qed.

(** C2, as stated, fails twice.  [+Infinity] is not a positive finite
    number, and [new Beta( Infinity, 2.0 )] returns an instance.
    [Object.create( null )] is not a positive finite number, and
    [new Beta( Object.create( null ), 2.0 )] throws the error of the
    conversion, whose message names no shape parameter and carries no
    value. *)
Lemma infinite_shape_accepted :
  (is_positive_finite (VNumber PINF) = false /\
   Beta WithNew [VNumber PINF; VNumber two] =
     Return (mkInstance (VNumber PINF) (VNumber two)) /\
   (forall e, Beta WithNew [VNumber PINF; VNumber two] <> Throw e)) /\
  (is_positive_finite (bare_object 0) = false /\
   exists msg,
     Beta WithNew [bare_object 0; VNumber two] = Throw (TypeError msg) /\
     names msg First = false /\ names msg Second = false /\
     offending_value msg = None).
Proof.
  split.
  - repeat split. intros e. discriminate.
  - split; [reflexivity | ]. eexists. repeat split.
Qed.



(** ** The evaluators *)

Lemma SFcompare_swap (x y : number) :
  SFcompare y x =
  match SFcompare x y with
  | Some c => Some (CompOpp c)
  | None => None
  end.
Proof.
  destruct x as [s | s | | s m e], y as [s' | s' | | s' m' e'];
    try destruct s; try destruct s'; cbn; try reflexivity;
    rewrite (Z.compare_antisym e' e); destruct (e' ?= e)%Z; cbn;
    try reflexivity;
    rewrite (Pos.compare_cont_antisym m m' Eq); reflexivity.
Qed.

Lemma lt_le (x y : number) : num_lt x y = true -> num_le x y = true.
Proof.
  unfold num_lt, num_le, SFltb, SFleb.
  destruct (SFcompare x y) as [[ | | ] | ]; auto; discriminate.
Qed.

Lemma lt_not_ge (x y : number) : num_lt x y = true -> num_ge x y = false.
Proof.
  unfold num_lt, num_ge, SFltb, SFleb. rewrite (SFcompare_swap x y).
  destruct (SFcompare x y) as [[ | | ] | ]; auto; discriminate.
Qed.

Lemma gt_ge (x y : number) : num_gt x y = true -> num_ge x y = true.
Proof. exact (lt_le y x). Qed.

Lemma gt_not_le (x y : number) : num_gt x y = true -> num_le x y = false.
Proof. exact (lt_not_ge y x). Qed.

Lemma gt_one_not_le_zero (x : number) :
  num_gt x one = true -> num_le x zero = false.
Proof.
  destruct x as [s | s | | s m e]; try destruct s; try discriminate;
    reflexivity.
Qed.

Lemma eq_zero_cases (p : number) :
  num_eq p zero = true -> exists s, p = S754_zero s.
Proof.
  destruct p as [s | s | | s m e]; try destruct s; cbn; try discriminate;
    eauto.
Qed.

Lemma eq_one_cases (p : number) : num_eq p one = true -> p = one.
Proof.
  unfold num_eq, SFeqb, one.
  destruct p as [s | s | | s m e];
    [destruct s; discriminate | destruct s; discriminate | discriminate | ].
  destruct s; [discriminate | ].
  unfold SFcompare.
  destruct (Z.compare_spec e (-52)) as [-> | _ | _];
    [ | discriminate | discriminate].
  destruct (Pos.compare_cont Eq m 4503599627370496) eqn:Hm;
    [ | discriminate | discriminate].
  apply Pos.compare_eq in Hm. subst m. reflexivity.
Qed.

Lemma outside_support_not_nan (x : number) :
  outside_support x = true -> isnan x = false.
Proof.
  destruct x as [s | s | | s m e]; try discriminate; intros _;
    unfold isnan, SFeqb; rewrite compare_self by discriminate; reflexivity.
Qed.

Section SpecifiedEvaluators.

Context {K : Numerics.Kernels}.

Lemma cdf_outside (x a b : number) :
  Numerics.any_nan x a b = false ->
  (num_lt x zero = true -> Numerics.cdf x a b = zero) /\
  (num_gt x one = true -> Numerics.cdf x a b = one).
Proof.
  unfold Numerics.cdf. intros ->. split; intros H.
  - rewrite (lt_le _ _ H). reflexivity.
  - rewrite (gt_one_not_le_zero _ H), (gt_ge _ _ H). reflexivity.
Qed.

Lemma specified_call (f : number -> number -> number -> number)
  (x a b : number) (d : instance) :
  alpha d = VNumber a -> beta d = VNumber b ->
  forall m, method_fn (E := Numerics.evaluators) m = Numerics.on_values f ->
  call_method (E := Numerics.evaluators) m (VNumber x) d =
  (Return (VNumber (f x a b)), d).
Proof.
  intros Ha Hb m Hm.
  rewrite call_method_reads, call_primitive, Hm, Ha, Hb. reflexivity.
Qed.

(** C6.  On an instance with positive shape parameters, [quantile( p )]
    returns NaN when [p] is NaN, below [0] or above [1], returns [0] at
    [p = 0] and [1] at [p = 1], and leaves the instance as it is. *)
Theorem quantile_edge_cases (d : instance) (p : number) :
  positive_fields d = true ->
  (isnan p || num_lt p zero || num_gt p one = true ->
   betaQuantile (E := Numerics.evaluators) (VNumber p) d =
     (Return (VNumber NaN), d)) /\
  (num_eq p zero = true ->
   betaQuantile (E := Numerics.evaluators) (VNumber p) d =
     (Return (VNumber zero), d)) /\
  (num_eq p one = true ->
   betaQuantile (E := Numerics.evaluators) (VNumber p) d =
     (Return (VNumber one), d)).
Proof.
  intros Hd. apply positive_fields_numbers in Hd.
  destruct Hd as (a & b & Ha & Hb & Pa & Pb).
  apply gt_zero_not_nan in Pa, Pb.
  change (betaQuantile (E := Numerics.evaluators) (VNumber p) d)
    with (call_method (E := Numerics.evaluators) Quantile (VNumber p) d).
  rewrite (specified_call Numerics.quantile p a b d Ha Hb Quantile eq_refl).
  unfold Numerics.quantile, Numerics.any_nan.
  rewrite Pa, Pb, !orb_false_r.
  repeat split.
  - intros H. destruct (isnan p); [reflexivity | ].
    cbn in H. rewrite H. reflexivity.
  - intros H. apply eq_zero_cases in H as [s ->]. destruct s; reflexivity.
  - intros H. apply eq_one_cases in H as ->. reflexivity.
Qed.

(** C7.  On an instance with positive shape parameters no evaluator
    throws on a number: each of [cdf], [logcdf], [logpdf], [pdf], [mgf]
    and [quantile] returns a number and leaves the instance as it is.  A
    NaN input gives NaN.  Below the support [cdf] gives [0], [logcdf] and
    [logpdf] give [-Infinity], [pdf] gives [0] and [quantile] gives NaN;
    above it [cdf] gives [1], [logcdf] gives [0], [logpdf] gives
    [-Infinity], [pdf] gives [0] and [quantile] gives NaN. *)
Theorem evaluators_never_raise (d : instance) (x : number) :
  positive_fields d = true ->
  (forall m, exists y,
     call_method (E := Numerics.evaluators) m (VNumber x) d =
       (Return (VNumber y), d) /\
     (isnan x = true -> y = NaN) /\
     (out_of_domain m x = true -> In y sentinels)) /\
  (num_lt x zero = true ->
   betaCDF (E := Numerics.evaluators) (VNumber x) d =
     (Return (VNumber zero), d) /\
   betaLogCDF (E := Numerics.evaluators) (VNumber x) d =
     (Return (VNumber NINF), d) /\
   betaLogPDF (E := Numerics.evaluators) (VNumber x) d =
     (Return (VNumber NINF), d) /\
   betaPDF (E := Numerics.evaluators) (VNumber x) d =
     (Return (VNumber zero), d) /\
   betaQuantile (E := Numerics.evaluators) (VNumber x) d =
     (Return (VNumber NaN), d)) /\
  (num_gt x one = true ->
   betaCDF (E := Numerics.evaluators) (VNumber x) d =
     (Return (VNumber one), d) /\
   betaLogCDF (E := Numerics.evaluators) (VNumber x) d =
     (Return (VNumber zero), d) /\
   betaLogPDF (E := Numerics.evaluators) (VNumber x) d =
     (Return (VNumber NINF), d) /\
   betaPDF (E := Numerics.evaluators) (VNumber x) d =
     (Return (VNumber zero), d) /\
   betaQuantile (E := Numerics.evaluators) (VNumber x) d =
     (Return (VNumber NaN), d)).
Proof.
  intros Hd. apply positive_fields_numbers in Hd.
  destruct Hd as (a & b & Ha & Hb & Pa & Pb).
  apply gt_zero_not_nan in Pa, Pb.
  assert (Hnan : isnan x = true -> Numerics.any_nan x a b = true).
  { intros H. unfold Numerics.any_nan. rewrite H. reflexivity. }
  assert (Hout : outside_support x = true -> Numerics.any_nan x a b = false).
  { intros H. unfold Numerics.any_nan.
    rewrite (outside_support_not_nan _ H), Pa, Pb. reflexivity. }
  assert (Hcall : forall m f,
            method_fn (E := Numerics.evaluators) m = Numerics.on_values f ->
            call_method (E := Numerics.evaluators) m (VNumber x) d =
            (Return (VNumber (f x a b)), d)).
  { intros m f Hm. exact (specified_call f x a b d Ha Hb m Hm). }
  assert (Hbelow : num_lt x zero = true ->
            Numerics.cdf x a b = zero /\ Numerics.logcdf x a b = NINF /\
            Numerics.logpdf x a b = NINF /\ Numerics.pdf x a b = zero /\
            Numerics.quantile x a b = NaN).
  { intros L.
    assert (O : outside_support x = true).
    { unfold outside_support. rewrite L. reflexivity. }
    pose proof (Hout O) as N.
    destruct (cdf_outside x a b N) as [C _]. specialize (C L).
    unfold Numerics.logcdf, Numerics.pdf, Numerics.logpdf,
      Numerics.quantile.
    rewrite C, N, L, (lt_le _ _ L), (lt_not_ge _ _ L).
    rewrite !andb_false_r. cbn. repeat split. }
  assert (Habove : num_gt x one = true ->
            Numerics.cdf x a b = one /\ Numerics.logcdf x a b = zero /\
            Numerics.logpdf x a b = NINF /\ Numerics.pdf x a b = zero /\
            Numerics.quantile x a b = NaN).
  { intros G.
    assert (O : outside_support x = true).
    { unfold outside_support. rewrite G. apply orb_true_r. }
    pose proof (Hout O) as N.
    destruct (cdf_outside x a b N) as [_ C]. specialize (C G).
    unfold Numerics.logcdf, Numerics.pdf, Numerics.logpdf,
      Numerics.quantile.
    rewrite C, N, G, (gt_ge _ _ G), (gt_not_le _ _ G).
    rewrite !orb_true_r, !andb_false_r. cbn. repeat split. }
  split; [ | split].
  - intros m.
    destruct m;
      [ rewrite (Hcall CDF Numerics.cdf eq_refl)
      | rewrite (Hcall LogCDF Numerics.logcdf eq_refl)
      | rewrite (Hcall LogPDF Numerics.logpdf eq_refl)
      | rewrite (Hcall MGF Numerics.mgf eq_refl)
      | rewrite (Hcall PDF Numerics.pdf eq_refl)
      | rewrite (Hcall Quantile Numerics.quantile eq_refl) ];
      eexists; (split; [reflexivity | ]);
      (split;
       [ intros N;
         unfold Numerics.cdf, Numerics.logcdf, Numerics.logpdf,
           Numerics.mgf, Numerics.pdf, Numerics.quantile;
         rewrite (Hnan N); reflexivity
       | intros O;
         first
           [ discriminate
           | apply orb_true_iff in O; destruct O as [L | G];
             [ destruct (Hbelow L) as (C1 & C2 & C3 & C4 & C5)
             | destruct (Habove G) as (C1 & C2 & C3 & C4 & C5) ];
             rewrite ?C1, ?C2, ?C3, ?C4, ?C5; cbn; auto ] ]).
  - intros L. destruct (Hbelow L) as (C1 & C2 & C3 & C4 & C5).
    change (betaCDF (E := Numerics.evaluators) (VNumber x) d)
      with (call_method (E := Numerics.evaluators) CDF (VNumber x) d).
    change (betaLogCDF (E := Numerics.evaluators) (VNumber x) d)
      with (call_method (E := Numerics.evaluators) LogCDF (VNumber x) d).
    change (betaLogPDF (E := Numerics.evaluators) (VNumber x) d)
      with (call_method (E := Numerics.evaluators) LogPDF (VNumber x) d).
    change (betaPDF (E := Numerics.evaluators) (VNumber x) d)
      with (call_method (E := Numerics.evaluators) PDF (VNumber x) d).
    change (betaQuantile (E := Numerics.evaluators) (VNumber x) d)
      with (call_method (E := Numerics.evaluators) Quantile (VNumber x) d).
    rewrite (Hcall CDF Numerics.cdf eq_refl),
      (Hcall LogCDF Numerics.logcdf eq_refl),
      (Hcall LogPDF Numerics.logpdf eq_refl),
      (Hcall PDF Numerics.pdf eq_refl),
      (Hcall Quantile Numerics.quantile eq_refl), C1, C2, C3, C4, C5.
    repeat split.
  - intros G. destruct (Habove G) as (C1 & C2 & C3 & C4 & C5).
    change (betaCDF (E := Numerics.evaluators) (VNumber x) d)
      with (call_method (E := Numerics.evaluators) CDF (VNumber x) d).
    change (betaLogCDF (E := Numerics.evaluators) (VNumber x) d)
      with (call_method (E := Numerics.evaluators) LogCDF (VNumber x) d).
    change (betaLogPDF (E := Numerics.evaluators) (VNumber x) d)
      with (call_method (E := Numerics.evaluators) LogPDF (VNumber x) d).
    change (betaPDF (E := Numerics.evaluators) (VNumber x) d)
      with (call_method (E := Numerics.evaluators) PDF (VNumber x) d).
    change (betaQuantile (E := Numerics.evaluators) (VNumber x) d)
      with (call_method (E := Numerics.evaluators) Quantile (VNumber x) d).
    rewrite (Hcall CDF Numerics.cdf eq_refl),
      (Hcall LogCDF Numerics.logcdf eq_refl),
      (Hcall LogPDF Numerics.logpdf eq_refl),
      (Hcall PDF Numerics.pdf eq_refl),
      (Hcall Quantile Numerics.quantile eq_refl), C1, C2, C3, C4, C5.
    repeat split.
Qed.

End SpecifiedEvaluators.

(** ** Examples *)

(** [new Beta( 2.0, 4.0 )], then [alpha = -1] (rejected), [cdf( 0.5 )],
    [beta = Infinity] and [mean]: both fields are positive numbers at the
    end. *)
Lemma fields_stay_positive_witness :
  Beta WithNew [VNumber two; VNumber four] =
    Return (mkInstance (VNumber two) (VNumber four)) /\
  exists a b,
    let ops := [SetAlpha (VNumber minus_one); CallMethod CDF (VNumber half);
                SetBeta (VNumber PINF); GetProperty Mean] in
    let d := run (P := undefined_properties) (E := uniform_evaluators) ops
               (mkInstance (VNumber two) (VNumber four)) in
    alpha d = VNumber a /\ beta d = VNumber b /\
    num_gt a zero = true /\ num_gt b zero = true.
Proof.
  split; [reflexivity | ].
  exact (proj1 (@fields_stay_positive undefined_properties uniform_evaluators
                  WithNew [VNumber two; VNumber four]
                  (mkInstance (VNumber two) (VNumber four))
                  [SetAlpha (VNumber minus_one);
                   CallMethod CDF (VNumber half);
                   SetBeta (VNumber PINF); GetProperty Mean]
                  eq_refl)).
Defined.

(** [new Beta( -5.0, 2.0 )] throws, and the message is about the first
    shape parameter and [-5.0]. *)
Lemma invalid_shape_rejected_witness :
  (isPositive (VNumber minus_five) = false \/
   isPositive (VNumber two) = false) /\
  exists e,
    Beta WithNew [VNumber minus_five; VNumber two] = Throw e /\
    ((isPositive (VNumber minus_five) = false /\
      e = rejection first_shape_template (VNumber minus_five) /\
      forall p, snd (ToString (VNumber minus_five)) = Return p ->
                exists msg, e = TypeError msg /\
                            names msg First = true /\
                            offending_value msg = Some p) \/
     (isPositive (VNumber minus_five) = true /\
      isPositive (VNumber two) = false /\
      e = rejection second_shape_template (VNumber two) /\
      forall p, snd (ToString (VNumber two)) = Return p ->
                exists msg, e = TypeError msg /\
                            names msg Second = true /\
                            offending_value msg = Some p)).
Proof.
  split; [left; reflexivity | ].
  exact (proj1 invalid_shape_rejected WithNew (VNumber minus_five)
           (VNumber two) (or_introl eq_refl)).
Defined.



(** On [new Beta( 2.0, 4.0 )], after [alpha = 4.0], [quantile( 0.5 )] is
    [quantile( 0.5, 4.0, 4.0 )]. *)
Lemma accesses_use_current_fields_witness :
  isPositive (VNumber four) = true /\
  (set_alpha (VNumber four) ;;;
   call_method (E := uniform_evaluators) Quantile (VNumber half))
    (mkInstance (VNumber two) (VNumber four)) =
  (Return (quantile (Evaluators := uniform_evaluators)
             (VNumber half) (VNumber four) (VNumber four)),
   mkInstance (VNumber four) (VNumber four)).
Proof.
  split; [reflexivity | ].
  exact (proj1 (proj1 (proj2 (proj2
           (@accesses_use_current_fields undefined_properties
              uniform_evaluators (mkInstance (VNumber two) (VNumber four))
              (PNumber half) (VNumber four)))) eq_refl) Quantile).
Defined.

(** On [new Beta( 2.0, 4.0 )], [quantile( 1.0 )] is [1.0]. *)
Lemma quantile_edge_cases_witness :
  positive_fields (mkInstance (VNumber two) (VNumber four)) = true /\
  betaQuantile (E := @Numerics.evaluators uniform_kernels) (VNumber one)
    (mkInstance (VNumber two) (VNumber four)) =
  (Return (VNumber one), mkInstance (VNumber two) (VNumber four)).
Proof.
  split; [reflexivity | ].
  exact (proj2 (proj2 (@quantile_edge_cases uniform_kernels
                         (mkInstance (VNumber two) (VNumber four)) one
                         eq_refl)) eq_refl).
Defined.

(** On [new Beta( 2.0, 4.0 )], [logcdf( -Infinity )] is [-Infinity]. *)
Lemma evaluators_never_raise_witness :
  positive_fields (mkInstance (VNumber two) (VNumber four)) = true /\
  num_lt NINF zero = true /\
  betaLogCDF (E := @Numerics.evaluators uniform_kernels) (VNumber NINF)
    (mkInstance (VNumber two) (VNumber four)) =
  (Return (VNumber NINF), mkInstance (VNumber two) (VNumber four)).
Proof.
  split; [reflexivity | ]. split; [reflexivity | ].
  exact (proj1 (proj2 (proj1 (proj2 (@evaluators_never_raise uniform_kernels
           (mkInstance (VNumber two) (VNumber four)) NINF eq_refl))
           eq_refl))).
Defined.

(** * Further properties of the constructor and the accessors *)

(** ** Arguments *)



(** X2.  The constructor throws exactly when it is given at least one
    argument and the first or the second is not a positive number.  What
    is thrown is what [throw new TypeError( format( ... ) )] ends in for
    the first argument and the message of the first shape parameter, or,
    the first being positive, for the second argument and the message of
    the second: the [TypeError] with that message and the value when the
    value converts to a string, the error of the conversion when it does
    not. *)
Theorem constructor_throws_iff (i : invocation) (arguments : list value)
  (e : error) :
  (Beta i arguments = Throw e <->
   arguments <> [] /\
   ((isPositive (argument arguments 0) = false /\
     e = rejection first_shape_template (argument arguments 0)) \/
    (isPositive (argument arguments 0) = true /\
     isPositive (argument arguments 1) = false /\
     e = rejection second_shape_template (argument arguments 1)))) /\
  (forall template v,
     (forall p, snd (ToString v) = Return p ->
                rejection template v = TypeError (formatted template p)) /\
     (forall e', snd (ToString v) = Throw e' -> rejection template v = e')).
Proof.
  split.
  - assert (Beta i arguments = Beta_new arguments) as ->.
    { destruct i; [reflexivity | apply Beta_without_new]. }
    unfold Beta_new, argument. destruct arguments as [ | a rest]; cbn.
    + split; [discriminate | ]. intros [H _]. now elim H.
    + destruct (isPositive a) eqn:Ha; cbn;
        [destruct (isPositive (nth 0 rest VUndefined)) eqn:Hb; cbn | ];
        split.
      * discriminate.
      * intros [_ [[H _] | (_ & H & _)]]; discriminate.
      * intros H. split; [discriminate | ]. right. repeat split; congruence.
      * intros [_ [[H _] | (_ & _ & ->)]]; [discriminate | reflexivity].
      * intros H. split; [discriminate | ]. left. split; congruence.
      * intros [_ [[_ ->] | (H & _)]]; [reflexivity | discriminate].
  - intros template v. split.
    + intros p. apply rejection_rendered.
    + intros e'. apply rejection_unrendered.
Qed.

Lemma constructor_throws_iff_witness :
  Beta WithoutNew [VNumber two] =
  Throw (TypeError (formatted second_shape_template PUndefined)).
Proof.
  apply (proj2 (proj1 (constructor_throws_iff WithoutNew [VNumber two] _))).
  split; [discriminate | ]. right. repeat split.
Defined.

(** ** Assignments *)

Lemma set_alpha_quiet (v : value) (d : instance) :
  fst (ToString v) = [] ->
  set_alpha v d =
  if isPositive v then (Return VUndefined, mkInstance v (beta d))
  else (Throw (rejection assignment_template v), d).
Proof. intros H. rewrite set_alpha_cases, H. reflexivity. Qed.

Lemma set_beta_quiet (v : value) (d : instance) :
  fst (ToString v) = [] ->
  set_beta v d =
  if isPositive v then (Return VUndefined, mkInstance (alpha d) v)
  else (Throw (rejection assignment_template v), d).
Proof. intros H. rewrite set_beta_cases, H. reflexivity. Qed.

(** X3.  The constructor and the two [set] accessors accept the same
    values: [Beta( a, b )] returns an instance exactly when, on any
    instance, [alpha = a] followed by [beta = b] both succeed, and the
    instance returned is the one the assignments leave. *)
Theorem constructor_as_assignments (i : invocation) (a b : value)
  (d0 d : instance) :
  Beta i [a; b] = Return d <->
  (set_alpha a ;;; set_beta b) d0 = (Return VUndefined, d).
Proof.
  rewrite Beta_two, Beta_new_two. unfold bind.
  rewrite set_alpha_cases.
  destruct (isPositive a); [ | split; discriminate].
  rewrite set_beta_cases. cbn.
  destruct (isPositive b); [ | split; discriminate].
  split; congruence.
Qed.

Lemma constructor_as_assignments_witness :
  (set_alpha (VNumber two) ;;; set_beta (VNumber four))
    (mkInstance (VNumber one) (VNumber one)) =
  (Return VUndefined, mkInstance (VNumber two) (VNumber four)).
Proof.
  apply (proj1 (constructor_as_assignments WithNew (VNumber two)
                  (VNumber four) (mkInstance (VNumber one) (VNumber one))
                  (mkInstance (VNumber two) (VNumber four)))).
  reflexivity.
Defined.

(** X4.  For a value whose conversion to a string assigns nothing to the
    instance, as every primitive: reading a field after an assignment to
    it gives the assigned value when the assignment was accepted and the
    former value when it was rejected; the other field reads as before in
    both cases. *)
Theorem read_after_assignment (v : value) (d : instance) :
  fst (ToString v) = [] ->
  get_alpha (snd (set_alpha v d)) =
    (Return (if isPositive v then v else alpha d), snd (set_alpha v d)) /\
  get_beta (snd (set_alpha v d)) =
    (Return (beta d), snd (set_alpha v d)) /\
  get_beta (snd (set_beta v d)) =
    (Return (if isPositive v then v else beta d), snd (set_beta v d)) /\
  get_alpha (snd (set_beta v d)) =
    (Return (alpha d), snd (set_beta v d)).
Proof.
  intros H. rewrite (set_alpha_quiet v d H), (set_beta_quiet v d H).
  destruct (isPositive v); repeat split.
Qed.

Lemma read_after_assignment_witness :
  get_alpha (snd (set_alpha VNull (mkInstance (VNumber two) (VNumber four))))
  = (Return (VNumber two),
     snd (set_alpha VNull (mkInstance (VNumber two) (VNumber four)))).
Proof.
  exact (proj1 (read_after_assignment VNull
                  (mkInstance (VNumber two) (VNumber four)) eq_refl)).
Defined.

(** X5.  For values whose conversion to a string assigns nothing to the
    instance, as every primitive: assignments to [alpha] and to [beta]
    commute, whether accepted or not; assigning the same value twice
    leaves what assigning it once leaves; an accepted assignment
    overwrites whatever an earlier assignment to the same field left.
    Two assignments in a row are not all-or-nothing: when the first is
    accepted and the second rejected, the first one stays. *)
Theorem assignments_compose (v w : value) (d : instance) :
  fst (ToString v) = [] -> fst (ToString w) = [] ->
  snd (set_beta w (snd (set_alpha v d))) =
    snd (set_alpha v (snd (set_beta w d))) /\
  snd (set_alpha v (snd (set_alpha v d))) = snd (set_alpha v d) /\
  snd (set_beta v (snd (set_beta v d))) = snd (set_beta v d) /\
  (isPositive w = true ->
   snd (set_alpha w (snd (set_alpha v d))) = snd (set_alpha w d) /\
   snd (set_beta w (snd (set_beta v d))) = snd (set_beta w d)) /\
  (isPositive v = true -> isPositive w = false ->
   (set_alpha v ;;; set_beta w) d =
   (Throw (rejection assignment_template w), mkInstance v (beta d))).
Proof.
  intros Qv Qw. unfold bind.
  destruct (isPositive v) eqn:Hv; destruct (isPositive w) eqn:Hw;
    repeat split; try discriminate; intros;
    repeat (rewrite ?(set_alpha_quiet v), ?(set_beta_quiet v),
              ?(set_alpha_quiet w), ?(set_beta_quiet w), ?Hv, ?Hw by assumption;
            cbn);
    reflexivity.
Qed.

Lemma assignments_compose_witness :
  (set_alpha (VNumber two) ;;; set_beta (VNumber zero))
    (mkInstance (VNumber one) (VNumber one)) =
  (Throw (TypeError (formatted assignment_template (PNumber zero))),
   mkInstance (VNumber two) (VNumber one)).
Proof.
  exact (proj2 (proj2 (proj2 (proj2
           (assignments_compose (VNumber two) (VNumber zero)
              (mkInstance (VNumber one) (VNumber one)) eq_refl eq_refl))))
           eq_refl eq_refl).
Defined.



(** X7.  An instance whose fields are positive numbers can be rebuilt from
    what its accessors return: [Beta( d.alpha, d.beta )] returns an equal
    instance, and assigning to a field the value it holds succeeds and
    changes nothing. *)
Theorem instance_round_trip (i : invocation) (d : instance) :
  positive_fields d = true ->
  Beta i [alpha d; beta d] = Return d /\
  set_alpha (alpha d) d = (Return VUndefined, d) /\
  set_beta (beta d) d = (Return VUndefined, d).
Proof.
  unfold positive_fields. intros H. apply andb_true_iff in H as [Ha Hb].
  rewrite Beta_two, Beta_new_two, set_alpha_cases, set_beta_cases, Ha, Hb.
  destruct d. repeat split.
Qed.

Lemma instance_round_trip_witness :
  Beta WithNew [VNumber PINF; VNumber half] =
  Return (mkInstance (VNumber PINF) (VNumber half)).
Proof.
  exact (proj1 (instance_round_trip WithNew
                  (mkInstance (VNumber PINF) (VNumber half)) eq_refl)).
Defined.

(** ** Sessions *)

Section SessionProperties.

Context {P : Properties} {E : Evaluators}.

Lemma quiet_codes (o : op) :
  quiet o = true ->
  match o with
  | SetAlpha v | SetBeta v => fst (ToString v) = []
  | CallMethod _ x => fst (ToNumeric x) = []
  | _ => True
  end.
Proof.
  destruct o as [ | | v | v | p | m x]; cbn [quiet]; auto;
    [ destruct (fst (ToString v)) | destruct (fst (ToString v))
    | destruct (fst (ToNumeric x)) ]; auto; discriminate.
Qed.

Lemma unaccepted_keeps_instance (o : op) (d : instance) :
  accepted_write o = false -> quiet o = true -> snd (exec o d) = d.
Proof.
  intros Ho Hq. apply quiet_codes in Hq. rewrite exec_leaves.
  destruct o as [ | | v | v | p | m x]; cbn in Ho;
    rewrite ?Ho, ?Hq; reflexivity.
Qed.

Lemma exec_keeps_alpha (o : op) (d : instance) :
  accepts_alpha o = false -> quiet o = true ->
  alpha (snd (exec o d)) = alpha d.
Proof.
  intros Ho Hq. apply quiet_codes in Hq. rewrite exec_leaves.
  destruct o as [ | | v | v | p | m x]; cbn in Ho;
    rewrite ?Ho, ?Hq; try reflexivity.
  destruct (isPositive v); reflexivity.
Qed.

Lemma exec_keeps_beta (o : op) (d : instance) :
  accepts_beta o = false -> quiet o = true ->
  beta (snd (exec o d)) = beta d.
Proof.
  intros Ho Hq. apply quiet_codes in Hq. rewrite exec_leaves.
  destruct o as [ | | v | v | p | m x]; cbn in Ho;
    rewrite ?Ho, ?Hq; try reflexivity.
  destruct (isPositive v); reflexivity.
Qed.

(** X8.  In a session where no conversion assigns to the instance, as in
    every session on primitives, only accepted assignments count: dropping
    every read, every method call and every rejected assignment leaves
    the final instance the same. *)
Theorem session_of_accepted_writes (ops : list op) (d : instance) :
  forallb quiet ops = true ->
  run ops d = run (filter accepted_write ops) d.
Proof.
  revert d. induction ops as [ | o ops IH]; intros d H; [reflexivity | ].
  cbn [forallb] in H. apply andb_true_iff in H as [Hq Hqs].
  rewrite run_cons. cbn [filter]. destruct (accepted_write o) eqn:Ho.
  - rewrite run_cons. apply IH, Hqs.
  - rewrite (unaccepted_keeps_instance o d Ho Hq). apply IH, Hqs.
Qed.

(** X9.  In a session where no conversion assigns to the instance, as in
    every session on primitives, the last accepted assignment wins, field
    by field: after the session [alpha] holds the value of the last
    accepted assignment to [alpha], or what it held before when there was
    none, whatever was assigned to [beta]; and likewise for [beta]. *)
Theorem last_accepted_assignment_wins (ops : list op) (d : instance) :
  forallb quiet ops = true ->
  ((existsb accepts_alpha ops = false /\ alpha (run ops d) = alpha d) \/
   (exists before v after,
      ops = (before ++ SetAlpha v :: after)%list /\ isPositive v = true /\
      existsb accepts_alpha after = false /\ alpha (run ops d) = v)) /\
  ((existsb accepts_beta ops = false /\ beta (run ops d) = beta d) \/
   (exists before v after,
      ops = (before ++ SetBeta v :: after)%list /\ isPositive v = true /\
      existsb accepts_beta after = false /\ beta (run ops d) = v)).
Proof.
  intros Q. split; revert d; induction ops as [ | o ops IH]; intros d;
    try (left; split; reflexivity); rewrite run_cons; cbn [existsb];
    cbn [forallb] in Q; apply andb_true_iff in Q as [Hq Hqs].
  - destruct (IH Hqs (snd (exec o d)))
      as [[Hno Ha] | (before & v & after & -> & Hv & Hno & Ha)].
    + destruct (accepts_alpha o) eqn:Ho.
      * right. destruct o; try discriminate. cbn in Ho.
        exists [], v, ops. repeat split; auto.
        rewrite Ha. cbn [exec]. rewrite set_alpha_cases, Ho. reflexivity.
      * left. split; [exact Hno | ].
        rewrite Ha. apply exec_keeps_alpha; assumption.
    + right. exists (o :: before), v, after. repeat split; auto.
  - destruct (IH Hqs (snd (exec o d)))
      as [[Hno Hb] | (before & v & after & -> & Hv & Hno & Hb)].
    + destruct (accepts_beta o) eqn:Ho.
      * right. destruct o; try discriminate. cbn in Ho.
        exists [], v, ops. repeat split; auto.
        rewrite Hb. cbn [exec]. rewrite set_beta_cases, Ho. reflexivity.
      * left. split; [exact Hno | ].
        rewrite Hb. apply exec_keeps_beta; assumption.
    + right. exists (o :: before), v, after. repeat split; auto.
Qed.


End SessionProperties.


Lemma session_of_accepted_writes_witness :
  run (P := undefined_properties) (E := uniform_evaluators)
    [SetAlpha (VNumber two); GetAlpha; SetBeta (VString "5");
     CallMethod PDF (plain_object 0); SetBeta (VNumber four)]
    (mkInstance (VNumber one) (VNumber one)) =
  run (P := undefined_properties) (E := uniform_evaluators)
    [SetAlpha (VNumber two); SetBeta (VNumber four)]
    (mkInstance (VNumber one) (VNumber one)).
Proof.
  exact (@session_of_accepted_writes undefined_properties uniform_evaluators
           [SetAlpha (VNumber two); GetAlpha; SetBeta (VString "5");
            CallMethod PDF (plain_object 0); SetBeta (VNumber four)]
           (mkInstance (VNumber one) (VNumber one)) eq_refl).
Defined.

Lemma last_accepted_assignment_wins_witness :
  (existsb accepts_alpha [SetBeta (VNumber two); SetAlpha VNull] = false /\
   alpha (run (P := undefined_properties) (E := uniform_evaluators)
            [SetBeta (VNumber two); SetAlpha VNull]
            (mkInstance (VNumber one) (VNumber one))) = VNumber one) \/
  (exists before v after,
     [SetBeta (VNumber two); SetAlpha VNull] =
       (before ++ SetAlpha v :: after)%list /\
     isPositive v = true /\ existsb accepts_alpha after = false /\
     alpha (run (P := undefined_properties) (E := uniform_evaluators)
              [SetBeta (VNumber two); SetAlpha VNull]
              (mkInstance (VNumber one) (VNumber one))) = v).
Proof.
  exact (proj1 (@last_accepted_assignment_wins undefined_properties
                  uniform_evaluators [SetBeta (VNumber two); SetAlpha VNull]
                  (mkInstance (VNumber one) (VNumber one)) eq_refl)).
Defined.

